(** * WorkerView: the worker page of the Buildbot web front end

    A shallow embedding of [www/base/src/views/WorkerView/WorkerView.tsx].

    The component is a function of its route parameter, of the hook cells
    React keeps for it between renders, and of the live content of the
    workers collection.  One call of the function (one render) yields the
    requests it declares, the top-bar actions it registers and the element
    tree it returns.  Event handlers are closures over the values of the
    render that created them; they are modelled as transformers of the
    hook cells. *)

From Stdlib Require Import ZArith List Bool Ascii String Lia.
Import ListNotations.

Local Open Scope string_scope.
Local Open Scope Z_scope.

Set Warnings "-register-all".

(** ** JavaScript numbers and strings, as far as the view uses them *)

Module Js.

(** The numbers the view computes with are the results of [Number.parseInt]
    and of adding the step to the fetch limit: integers, or NaN.  An
    integer is kept as its mathematical value, which is what a Number
    holds up to [MAX_SAFE_INTEGER]. *)
Inductive number : Type :=
| NaN
| Int (z : Z).

Definition MAX_SAFE_INTEGER : Z := 9007199254740991.

(** Strings are sequences of code units below 256. *)
Definition code (c : ascii) : Z := Z.of_N (N_of_ascii c).

(** The WhiteSpace and LineTerminator code units below 256: TAB, LF, VT,
    FF, CR, SP and NBSP. *)
Definition isStrWhiteSpaceChar (c : ascii) : bool :=
  let n := code c in
  ((9 <=? n) && (n <=? 13)) || (n =? 32) || (n =? 160).

Fixpoint trimStart (s : string) : string :=
  match s with
  | String c rest => if isStrWhiteSpaceChar c then trimStart rest else s
  | EmptyString => s
  end.

(** The value of a code unit as a digit: 0-9, then a-z and A-Z for 10-35. *)
Definition digitValue (c : ascii) : option Z :=
  let n := code c in
  if (48 <=? n) && (n <=? 57) then Some (n - 48)
  else if (97 <=? n) && (n <=? 122) then Some (n - 87)
  else if (65 <=? n) && (n <=? 90) then Some (n - 55)
  else None.

Definition radixDigit (R : Z) (c : ascii) : option Z :=
  match digitValue c with
  | Some d => if d <? R then Some d else None
  | None => None
  end.

(** The longest prefix of radix-[R] digits, read as an integer; [acc] is
    [None] as long as no digit has been read. *)
Fixpoint parseDigits (R : Z) (s : string) (acc : option Z) : option Z :=
  match s with
  | String c rest =>
      match radixDigit R c with
      | Some d =>
          parseDigits R rest
            (Some match acc with Some a => a * R + d | None => d end)
      | None => acc
      end
  | EmptyString => acc
  end.

Definition stripSign (s : string) : Z * string :=
  match s with
  | String "-" rest => (-1, rest)
  | String "+" rest => (1, rest)
  | _ => (1, s)
  end.

Definition stripPrefix (s : string) : Z * string :=
  match s with
  | String "0" (String "x" rest) => (16, rest)
  | String "0" (String "X" rest) => (16, rest)
  | _ => (10, s)
  end.

(** [Number.parseInt(string)] with no radix argument. *)
Definition parseInt (input : string) : number :=
  let '(sign, s1) := stripSign (trimStart input) in
  let '(R, s2) := stripPrefix s1 in
  match parseDigits R s2 None with
  | None => NaN
  | Some mathInt => Int (sign * mathInt)
  end.

Definition digitChar (d : Z) : ascii := ascii_of_N (Z.to_N (48 + d)).

(** Decimal digits of a non-negative integer, most significant first. *)
Fixpoint digitsOf (fuel : nat) (n : Z) (acc : string) : string :=
  match fuel with
  | O => acc
  | S fuel' =>
      let acc' := String (digitChar (n mod 10)) acc in
      if n / 10 =? 0 then acc' else digitsOf fuel' (n / 10) acc'
  end.

Definition decimal (n : Z) : string :=
  digitsOf (S (Z.to_nat (Z.log2 n))) n "".

(** [Number.prototype.toString()] with no radix argument, on NaN and on
    integers printed without an exponent (below 10^21). *)
Definition toString (x : number) : string :=
  match x with
  | NaN => "NaN"
  | Int z => if z <? 0 then "-" ++ decimal (- z) else decimal z
  end.

Definition isDecimalDigit (c : ascii) : bool :=
  (48 <=? code c) && (code c <=? 57).

Fixpoint allDecimalDigits (s : string) : bool :=
  match s with
  | EmptyString => true
  | String c rest => isDecimalDigit c && allDecimalDigits rest
  end.

Fixpoint allWhiteSpace (s : string) : bool :=
  match s with
  | EmptyString => true
  | String c rest => isStrWhiteSpaceChar c && allWhiteSpace rest
  end.

(** A non-empty run of decimal digits. *)
Definition isDecimalToken (s : string) : bool :=
  match s with
  | EmptyString => false
  | String _ _ => allDecimalDigits s
  end.

(** A decimal integer as [toString] writes it: digits, or a minus sign and
    digits. *)
Definition isIntegerToken (s : string) : bool :=
  isDecimalToken s
  || match s with
     | String c rest => (code c =? 45) && isDecimalToken rest
     | EmptyString => false
     end.

(** The first code unit of a string satisfies [p]; false on the empty
    string. *)
Definition startsWith (p : ascii -> bool) (s : string) : bool :=
  match s with
  | String c _ => p c
  | EmptyString => false
  end.

Definition isSign (c : ascii) : bool := (code c =? 43) || (code c =? 45).

Definition isX (c : ascii) : bool := (code c =? 120) || (code c =? 88).

Definition isSafeInteger (x : number) : bool :=
  match x with
  | NaN => false
  | Int z => (- MAX_SAFE_INTEGER <=? z) && (z <=? MAX_SAFE_INTEGER)
  end.

(** [a ?? b] on a possibly undefined string. *)
Definition nullish (a : option string) (b : string) : string :=
  match a with
  | Some s => s
  | None => b
  end.

End Js.

(** ** The data layer, the hooks and the elements the view is written against *)

Set Implicit Arguments.

Section View.

(** The [Worker] entity class of the data module; the view only passes
    references to workers around. *)
Variable Worker : Type.

(** The per-worker builds map the workers table accepts. *)
Variable BuildsForWorker : Type.

(** A collection handed out by the data layer, as the view reads it:
    [isResolved()] and the observable [array], whose content the data
    layer changes in place. *)
Record DataCollection : Type := {
  resolved : bool;
  array : list Worker
}.

Definition isResolved (c : DataCollection) : bool := resolved c.

(** What a [null|Worker] state cell can hold at run time; indexing an
    array out of range yields [undefined]. *)
Inductive WorkerRef : Type :=
| Null
| Undefined
| Ref (w : Worker).

Definition arrayGet (a : list Worker) (i : nat) : WorkerRef :=
  match nth_error a i with
  | Some w => Ref w
  | None => Undefined
  end.

(** [x !== null] *)
Definition notNull (x : WorkerRef) : bool :=
  match x with
  | Null => false
  | _ => true
  end.

(** The state cells React keeps for the component; a cell is [None] until
    the first render has run. *)
Record Hooks : Type := {
  limitCell : option Z;
  workerForActionsCell : option WorkerRef
}.

Definition unmounted : Hooks :=
  {| limitCell := None; workerForActionsCell := None |}.

Definition Handler : Type := Hooks -> Hooks.

Definition useState {A : Type} (initial : A) (cell : option A) : A :=
  match cell with
  | Some v => v
  | None => initial
  end.

Definition setLimit (v : Z) : Handler :=
  fun h => {| limitCell := Some v;
              workerForActionsCell := workerForActionsCell h |}.

Definition setWorkerForActions (v : WorkerRef) : Handler :=
  fun h => {| limitCell := limitCell h; workerForActionsCell := Some v |}.

(** Modelled from the spec: the [useLoadMoreItemsState] hook of
    buildbot-ui, whose source is not part of this file.  It keeps the
    limit in a state cell that starts at the initial limit, and its
    callback ("load more") increases the limit by the step. *)
Definition useLoadMoreItemsState (initialLimit step : Z) (h : Hooks)
  : Z * Handler :=
  (useState initialLimit (limitCell h),
   fun h' => setLimit (useState initialLimit (limitCell h') + step) h').

Record Accessor : Type := { dependency : list Js.number }.

Definition useDataAccessor (dependency : list Js.number) : Accessor :=
  {| dependency := dependency |}.

(** The object literal under [query:] in the builds request. *)
Record BuildsQuery : Type := {
  property : list string;
  workerid__eq : Js.number;
  limit : Z;
  order : string
}.

(** The second argument of [getAll]; an absent key is [None]. *)
Record RequestQuery : Type := {
  query : option BuildsQuery;
  id : option string
}.

Definition noQuery : RequestQuery := {| query := None; id := None |}.

Inductive Request : Type :=
| Worker_getAll (accessor : Accessor) (q : RequestQuery)
| Builder_getAll (accessor : Accessor) (q : RequestQuery)
| Master_getAll (accessor : Accessor) (q : RequestQuery)
| Build_getAll (accessor : Accessor) (q : RequestQuery).

Definition requestQuery (r : Request) : RequestQuery :=
  match r with
  | Worker_getAll _ q | Builder_getAll _ q
  | Master_getAll _ q | Build_getAll _ q => q
  end.

(** A query declared through [useDataApiDynamicQuery]: the dependency
    list and the request its callback builds. *)
Record DynamicQuery : Type := {
  dependencies : list Z;
  request : Request
}.

Definition useDataApiDynamicQuery (dependencies : list Z) (callback : Request)
  : DynamicQuery :=
  {| dependencies := dependencies; request := callback |}.

Fixpoint arrayElementsEqual (a b : list Z) : bool :=
  match a, b with
  | [], [] => true
  | x :: a', y :: b' => (x =? y) && arrayElementsEqual a' b'
  | _, _ => false
  end.

(** Modelled from the spec: the [useDataApiDynamicQuery] hook of
    buildbot-data-js, whose source is not part of this file.  The query is
    re-issued, by running the callback again, whenever the dependency list
    differs from the one of the previous render. *)
Definition reissued (previous next : DynamicQuery) : bool :=
  negb (arrayElementsEqual (dependencies previous) (dependencies next)).

(** A top-bar action.  The callback of the view reads the collection when
    it is invoked, so it takes the content the collection has then. *)
Record TopbarAction : Type := {
  caption : string;
  variant : string;
  action : DataCollection -> Handler
}.

Inductive Element : Type :=
| div (className : string) (children : list Element)
| WorkersTable (workers : list Worker) (buildersQuery mastersQuery : Request)
    (buildsForWorker : option BuildsForWorker)
    (onWorkerIconClick : Worker -> Handler)
| WorkerActionsModal (worker : WorkerRef) (onClose : Handler)
| Fragment
| BuildsTable (builds : DynamicQuery) (builders : Request) (fetchLimit : Z)
    (onLoadMore : Handler).

(** ** The component *)

(** What one render reads from outside the component: the route parameter
    ([useParams().workerid]), the content of the collection behind
    [workersQuery], and the result of [getBuildLinkDisplayProperties()]. *)
Record Env : Type := {
  params_workerid : option string;
  workers : DataCollection;
  buildLinkDisplayProperties : list string
}.

(** What one render produces. *)
Record Rendered : Type := {
  accessor : Accessor;
  workersQuery : Request;
  buildersQuery : Request;
  mastersQuery : Request;
  buildsQuery : DynamicQuery;
  topBarActions : list TopbarAction;
  jsx : Element
}.

Definition initialBuildsFetchLimit : Z := 100.

Definition WorkerView (env : Env) (h : Hooks) : Rendered :=
  let workerid := Js.parseInt (Js.nullish (params_workerid env) "") in
  let accessor := useDataAccessor [workerid] in
  let '(buildsFetchLimit, onLoadMoreBuilds) :=
    useLoadMoreItemsState initialBuildsFetchLimit initialBuildsFetchLimit h in
  let workersQuery :=
    Worker_getAll accessor
      {| query := None; id := Some (Js.toString workerid) |} in
  let buildersQuery := Builder_getAll accessor noQuery in
  let mastersQuery := Master_getAll accessor noQuery in
  let buildsQuery :=
    useDataApiDynamicQuery [buildsFetchLimit]
      (Build_getAll accessor
         {| query := Some
              {| property :=
                   ["owners"; "workername"; "branch"; "revision"]
                   ++ buildLinkDisplayProperties env;
                 workerid__eq := workerid;
                 limit := buildsFetchLimit;
                 order := "-buildid" |};
            id := None |}) in
  let workerForActions := useState Null (workerForActionsCell h) in
  let topBarActions :=
    if isResolved (workers env) && (1 <=? List.length (array (workers env)))%nat
    then [ {| caption := "Actions...";
              variant := "primary";
              action := fun live => setWorkerForActions (arrayGet (array live) 0)
           |} ]
    else [] in
  {| accessor := accessor;
     workersQuery := workersQuery;
     buildersQuery := buildersQuery;
     mastersQuery := mastersQuery;
     buildsQuery := buildsQuery;
     topBarActions := topBarActions;
     jsx :=
       div "container"
         [ WorkersTable (array (workers env)) buildersQuery mastersQuery None
             (fun worker => setWorkerForActions (Ref worker));
           if notNull workerForActions
           then WorkerActionsModal workerForActions (setWorkerForActions Null)
           else Fragment;
           BuildsTable buildsQuery buildersQuery buildsFetchLimit
             onLoadMoreBuilds ] |}.

(** ** Plugin registration *)

Record RouteConfig : Type := {
  route : string;
  group : string;
  element : Env -> Hooks -> Rendered
}.

(** Modelled from the spec: the registration object of
    buildbot-plugin-support, whose source is not part of this file.  It is
    the process-wide router table: the routes registered so far, in the
    order of registration. *)
Definition Registration : Type := list RouteConfig.

(** Modelled from the spec: [reg.registerRoute] of buildbot-plugin-support
    adds the route it is given to the router table. *)
Definition registerRoute (config : RouteConfig) (reg : Registration)
  : Registration :=
  (reg ++ [config])%list.

(** Modelled from the spec: [buildbotSetupPlugin] of
    buildbot-plugin-support runs the callback it is given at plugin-setup
    time, once. *)
Definition buildbotSetupPlugin (callback : Registration -> Registration)
  (reg : Registration) : Registration :=
  callback reg.

(** The statement at the end of the module, run when the module loads. *)
Definition moduleLoad : Registration -> Registration :=
  buildbotSetupPlugin
    (fun reg =>
       registerRoute
         {| route := "workers/:workerid";
            group := "workers";
            element := WorkerView |} reg).

(** ** The page in use: renders and user events *)

(** An element and everything below it, in document order. *)
Fixpoint descendants (e : Element) : list Element :=
  e :: match e with
       | div _ cs => flat_map descendants cs
       | _ => []
       end.

Fixpoint firstSome {A B : Type} (f : A -> option B) (l : list A) : option B :=
  match l with
  | [] => None
  | x :: rest =>
      match f x with
      | Some y => Some y
      | None => firstSome f rest
      end
  end.

(** The action modals in a tree, by the worker each one is open for. *)
Definition openModals (e : Element) : list WorkerRef :=
  flat_map (fun x => match x with
                     | WorkerActionsModal worker _ => [worker]
                     | _ => []
                     end) (descendants e).

Inductive Event : Type :=
| ClickTopbarAction (i : nat) (live : DataCollection)
    (* the [i]-th top-bar entry, while the workers collection holds [live] *)
| ClickWorkerIcon (w : Worker)
| CloseModal
| LoadMore.

(** The callback an event reaches: the props and top-bar actions are the
    ones of the last render. *)
Definition handlerOf (topbar : list TopbarAction) (page : Element) (ev : Event)
  : option Handler :=
  match ev with
  | ClickTopbarAction i live =>
      option_map (fun a => action a live) (nth_error topbar i)
  | ClickWorkerIcon w =>
      firstSome (fun x => match x with
                          | WorkersTable _ _ _ _ onWorkerIconClick =>
                              Some (onWorkerIconClick w)
                          | _ => None
                          end) (descendants page)
  | CloseModal =>
      firstSome (fun x => match x with
                          | WorkerActionsModal _ onClose => Some onClose
                          | _ => None
                          end) (descendants page)
  | LoadMore =>
      firstSome (fun x => match x with
                          | BuildsTable _ _ _ onLoadMore => Some onLoadMore
                          | _ => None
                          end) (descendants page)
  end.

Record World : Type := {
  routes : Registration;
  topbar : list TopbarAction;        (* what [useTopbarActions] last stored *)
  page : option Rendered;            (* the last render, if any *)
  hooks : Hooks
}.

Inductive Step : Type :=
| Render (env : Env)
| User (ev : Event).

Definition step (w : World) (s : Step) : World :=
  match s with
  | Render env =>
      let r := WorkerView env (hooks w) in
      {| routes := routes w;
         topbar := topBarActions r;
         page := Some r;
         hooks := hooks w |}
  | User ev =>
      match page w with
      | None => w
      | Some r =>
          match handlerOf (topbar w) (jsx r) ev with
          | Some f =>
              {| routes := routes w;
                 topbar := topbar w;
                 page := page w;
                 hooks := f (hooks w) |}
          | None => w
          end
      end
  end.

Definition run (w : World) (trace : list Step) : World :=
  fold_left step trace w.

(** The application once the module has been loaded and before the view
    is shown. *)
Definition loaded : World :=
  {| routes := moduleLoad [];
     topbar := [];
     page := None;
     hooks := unmounted |}.

(** The fetch limit and the modal target a render would read. *)
Definition buildsFetchLimit (h : Hooks) : Z :=
  useState initialBuildsFetchLimit (limitCell h).

Definition workerForActions (h : Hooks) : WorkerRef :=
  useState Null (workerForActionsCell h).

Definition isLoadMore (s : Step) : bool :=
  match s with
  | User LoadMore => true
  | _ => false
  end.

(** ** Reading a render *)

(** The object under [query:] of the builds request. *)
Definition buildsRequestQuery (r : Rendered) : option BuildsQuery :=
  query (requestQuery (request (buildsQuery r))).

(** The [id] filter of the workers request. *)
Definition workersRequestId (r : Rendered) : option string :=
  id (requestQuery (workersQuery r)).

Definition captions (r : Rendered) : list string :=
  map caption (topBarActions r).

Definition componentName (e : Element) : string :=
  match e with
  | div _ _ => "div"
  | WorkersTable _ _ _ _ _ => "WorkersTable"
  | WorkerActionsModal _ _ => "WorkerActionsModal"
  | Fragment => "Fragment"
  | BuildsTable _ _ _ _ => "BuildsTable"
  end.

(** The [buildsForWorker] prop of every workers table in a tree. *)
Definition buildsForWorkerProps (e : Element) : list (option BuildsForWorker) :=
  flat_map (fun x => match x with
                     | WorkersTable _ _ _ buildsForWorker _ => [buildsForWorker]
                     | _ => []
                     end) (descendants e).

(** The [workers] prop of every workers table in a tree. *)
Definition workersProps (e : Element) : list (list Worker) :=
  flat_map (fun x => match x with
                     | WorkersTable workers _ _ _ _ => [workers]
                     | _ => []
                     end) (descendants e).

(** The [builds], [builders] and [fetchLimit] props of every builds table
    in a tree. *)
Definition buildsTableProps (e : Element)
  : list (DynamicQuery * Request * Z) :=
  flat_map (fun x => match x with
                     | BuildsTable builds builders fetchLimit _ =>
                         [(builds, builders, fetchLimit)]
                     | _ => []
                     end) (descendants e).

(** The [buildersQuery] and [mastersQuery] props of every workers table in
    a tree. *)
Definition workersTableQueries (e : Element) : list (Request * Request) :=
  flat_map (fun x => match x with
                     | WorkersTable _ buildersQuery mastersQuery _ _ =>
                         [(buildersQuery, mastersQuery)]
                     | _ => []
                     end) (descendants e).

Definition requestAccessor (r : Request) : Accessor :=
  match r with
  | Worker_getAll a _ | Builder_getAll a _
  | Master_getAll a _ | Build_getAll a _ => a
  end.

(** The workers a user event offers as modal target: the worker whose icon
    is clicked, or what index 0 of the collection holds when a top-bar
    entry is clicked. *)
Definition selected (s : Step) : list WorkerRef :=
  match s with
  | User (ClickWorkerIcon x) => [Ref x]
  | User (ClickTopbarAction _ live) => [arrayGet (array live) 0]
  | _ => []
  end.

(** The environment of a render with another route parameter. *)
Definition withRoute (route : option string) (env : Env) : Env :=
  {| params_workerid := route;
     workers := workers env;
     buildLinkDisplayProperties := buildLinkDisplayProperties env |}.

(** A builds query with another limit and everything else as it is. *)
Definition withLimit (l : Z) (q : BuildsQuery) : BuildsQuery :=
  {| property := property q;
     workerid__eq := workerid__eq q;
     limit := l;
     order := order q |}.

(** The page of a world, when there is one, is a render of the component,
    and the top bar holds the actions of that render. *)
Definition consistent (w : World) : Prop :=
  match page w with
  | None => topbar w = []
  | Some r => topbar w = topBarActions r /\ exists env h, r = WorkerView env h
  end.

End View.

Unset Implicit Arguments.

Arguments Null {Worker}.
Arguments Undefined {Worker}.
Arguments Fragment {Worker BuildsForWorker}.
Arguments CloseModal {Worker}.
Arguments LoadMore {Worker}.
Arguments unmounted {Worker}.

(** ** Sample data *)

Module Sample.

(** A worker stood for by its name. *)
Definition Worker : Type := string.

Definition BuildsForWorker : Type := unit.

Definition pending : DataCollection Worker :=
  {| resolved := false; array := [] |}.

Definition resolvedWith (ws : list Worker) : DataCollection Worker :=
  {| resolved := true; array := ws |}.

Definition env (workerid : option string) (c : DataCollection Worker)
  : Env Worker :=
  {| params_workerid := workerid;
     workers := c;
     buildLinkDisplayProperties := ["got_revision"] |}.

End Sample.

(** * Properties *)

(** ** Printing and parsing integers *)

Module JsFacts.
Import Js.

Lemma digitChar_cases (d : Z) :
  0 <= d < 10 ->
  d = 0 \/ d = 1 \/ d = 2 \/ d = 3 \/ d = 4 \/
  d = 5 \/ d = 6 \/ d = 7 \/ d = 8 \/ d = 9.
Proof. lia. Qed.

Lemma radixDigit_digitChar (d : Z) :
  0 <= d < 10 -> radixDigit 10 (digitChar d) = Some d.
Proof.
  intros H.
  destruct (digitChar_cases d H) as [-> | [-> | [-> | [-> | [-> |
           [-> | [-> | [-> | [-> | ->]]]]]]]]]; reflexivity.
Qed.

Lemma isDecimalDigit_digitChar (d : Z) :
  0 <= d < 10 -> isDecimalDigit (digitChar d) = true.
Proof.
  intros H.
  destruct (digitChar_cases d H) as [-> | [-> | [-> | [-> | [-> |
           [-> | [-> | [-> | [-> | ->]]]]]]]]]; reflexivity.
Qed.

(** Reading back the digits [digitsOf] writes in front of [rest]. *)
Lemma parseDigits_digitsOf (fuel : nat) :
  forall n rest,
    0 <= n < 10 ^ Z.of_nat (S fuel) ->
    parseDigits 10 (digitsOf (S fuel) n rest) None
    = parseDigits 10 rest (Some n).
Proof.
  induction fuel as [| fuel IH]; intros n rest Hn.
  - change (10 ^ Z.of_nat 1) with 10 in Hn.
    cbn [digitsOf].
    rewrite (Z.div_small n 10) by lia. cbn [Z.eqb parseDigits].
    rewrite radixDigit_digitChar by (apply Z.mod_pos_bound; lia).
    rewrite Z.mod_small by lia. reflexivity.
  - assert (Hm : 0 <= n mod 10 < 10) by (apply Z.mod_pos_bound; lia).
    assert (Hdm : n = n / 10 * 10 + n mod 10)
      by (rewrite Z.mul_comm; apply Z.div_mod; lia).
    change (digitsOf (S (S fuel)) n rest)
      with (if n / 10 =? 0
            then String (digitChar (n mod 10)) rest
            else digitsOf (S fuel) (n / 10) (String (digitChar (n mod 10)) rest)).
    destruct (Z.eqb_spec (n / 10) 0) as [Hz | Hz].
    + cbn [parseDigits]. rewrite radixDigit_digitChar by exact Hm.
      do 2 f_equal. lia.
    + rewrite IH.
      * cbn [parseDigits]. rewrite radixDigit_digitChar by exact Hm.
        do 2 f_equal. lia.
      * split; [apply Z.div_pos; lia |].
        apply Z.div_lt_upper_bound; [lia |].
        replace (Z.of_nat (S (S fuel))) with (Z.succ (Z.of_nat (S fuel))) in Hn
          by lia.
        rewrite Z.pow_succ_r in Hn by lia. lia.
Qed.

Lemma allDecimalDigits_digitsOf (fuel : nat) :
  forall n rest,
    allDecimalDigits rest = true ->
    allDecimalDigits (digitsOf fuel n rest) = true.
Proof.
  induction fuel as [| fuel IH]; intros n rest Hrest; [exact Hrest |].
  cbn [digitsOf].
  assert (Hd : allDecimalDigits (String (digitChar (n mod 10)) rest) = true).
  { cbn [allDecimalDigits].
    rewrite isDecimalDigit_digitChar by (apply Z.mod_pos_bound; lia).
    exact Hrest. }
  destruct (n / 10 =? 0); [exact Hd | apply IH; exact Hd].
Qed.

Lemma digitsOf_not_empty (fuel : nat) :
  forall n rest, digitsOf (S fuel) n rest <> "".
Proof.
  induction fuel as [| fuel IH]; intros n rest.
  - cbn [digitsOf]. destruct (n / 10 =? 0); discriminate.
  - change (digitsOf (S (S fuel)) n rest)
      with (if n / 10 =? 0
            then String (digitChar (n mod 10)) rest
            else digitsOf (S fuel) (n / 10) (String (digitChar (n mod 10)) rest)).
    destruct (n / 10 =? 0); [discriminate | apply IH].
Qed.

Lemma decimal_bound (n : Z) :
  0 <= n -> n < 10 ^ Z.of_nat (S (Z.to_nat (Z.log2 n))).
Proof.
  intros Hn.
  assert (Hl : 0 <= Z.log2 n) by apply Z.log2_nonneg.
  replace (Z.of_nat (S (Z.to_nat (Z.log2 n)))) with (Z.succ (Z.log2 n)) by lia.
  destruct (Z.eq_dec n 0) as [-> | Hnz]; [reflexivity |].
  apply Z.lt_le_trans with (2 ^ Z.succ (Z.log2 n)).
  - apply Z.log2_spec. lia.
  - apply Z.pow_le_mono_l. lia.
Qed.

Lemma parseDigits_decimal (n : Z) :
  0 <= n -> parseDigits 10 (decimal n) None = Some n.
Proof.
  intros Hn. unfold decimal.
  rewrite parseDigits_digitsOf by (split; [exact Hn | apply decimal_bound, Hn]).
  reflexivity.
Qed.

(** A non-empty string of decimal digits has no white space, sign or
    hexadecimal prefix for [parseInt] to strip. *)
Lemma nothing_to_strip (s : string) :
  allDecimalDigits s = true -> s <> "" ->
  trimStart s = s /\ stripSign s = (1, s) /\ stripPrefix s = (10, s).
Proof.
  destruct s as [| c rest]; [intros _ H; now elim H |].
  intros Hs _. cbn [allDecimalDigits] in Hs.
  apply andb_prop in Hs. destruct Hs as [Hc Hrest].
  destruct c as [[] [] [] [] [] [] [] []]; try discriminate Hc;
    try (repeat split; reflexivity).
  destruct rest as [| c2 rest2]; [repeat split; reflexivity |].
  cbn [allDecimalDigits] in Hrest.
  apply andb_prop in Hrest. destruct Hrest as [Hc2 _].
  destruct c2 as [[] [] [] [] [] [] [] []]; try discriminate Hc2;
    repeat split; reflexivity.
Qed.

Lemma parseInt_decimal (n : Z) :
  0 <= n -> parseInt (decimal n) = Int n.
Proof.
  intros Hn.
  destruct (nothing_to_strip (decimal n)) as (Ht & Hs & Hp).
  - apply allDecimalDigits_digitsOf. reflexivity.
  - apply digitsOf_not_empty.
  - unfold parseInt. rewrite Ht, Hs, Hp, parseDigits_decimal by exact Hn.
    f_equal. lia.
Qed.

(** Printing an integer and parsing the result gives the integer back. *)
Lemma parseInt_toString (z : Z) : parseInt (toString (Int z)) = Int z.
Proof.
  unfold toString. destruct (Z.ltb_spec z 0) as [Hneg | Hpos].
  - destruct (nothing_to_strip (decimal (- z))) as (_ & _ & Hp).
    + apply allDecimalDigits_digitsOf. reflexivity.
    + apply digitsOf_not_empty.
    + unfold parseInt.
      change (trimStart ("-" ++ decimal (- z))) with ("-" ++ decimal (- z))%string.
      change (stripSign ("-" ++ decimal (- z))) with (-1, decimal (- z)).
      cbv beta iota.
      rewrite Hp, parseDigits_decimal by lia.
      f_equal. lia.
  - apply parseInt_decimal, Hpos.
Qed.

Lemma parseInt_empty : parseInt "" = NaN.
Proof. reflexivity. Qed.

Lemma toString_NaN : toString NaN = "NaN".
Proof. reflexivity. Qed.

End JsFacts.

Example parseInt_samples :
  Js.parseInt "42" = Js.Int 42 /\
  Js.parseInt "" = Js.NaN /\ Js.parseInt "abc" = Js.NaN /\
  Js.parseInt "  -17px" = Js.Int (-17) /\ Js.parseInt "0x1f" = Js.Int 31 /\
  Js.parseInt "+" = Js.NaN /\ Js.parseInt "007" = Js.Int 7 /\
  Js.parseInt "4.9" = Js.Int 4.
Proof. repeat split; reflexivity. Qed.

Example toString_samples :
  Js.toString (Js.Int 42) = "42" /\ Js.toString (Js.Int 0) = "0" /\
  Js.toString (Js.Int (-305)) = "-305" /\ Js.toString Js.NaN = "NaN" /\
  Js.toString (Js.Int 9007199254740991) = "9007199254740991".
Proof. repeat split; reflexivity. Qed.

(** ** What one render declares *)

Section Render.

Variables Worker BuildsForWorker : Type.

Local Abbreviation view := (WorkerView (Worker := Worker) BuildsForWorker).

Implicit Types (env : Env Worker) (h : Hooks Worker).

Lemma topBarActions_resolved env h :
  isResolved (workers env) = true ->
  (1 <= List.length (array (workers env)))%nat ->
  topBarActions (view env h)
  = [ {| caption := "Actions...";
         variant := "primary";
         action := fun live => setWorkerForActions (arrayGet (array live) 0) |} ].
Proof.
  intros Hr Hl. unfold WorkerView. cbn.
  rewrite Hr. destruct (array (workers env)); [cbn in Hl; lia | reflexivity].
Qed.

Lemma topBarActions_otherwise env h :
  isResolved (workers env) = false \/ array (workers env) = [] ->
  topBarActions (view env h) = [].
Proof.
  intros [Hr | Ha]; unfold WorkerView; cbn.
  - rewrite Hr. reflexivity.
  - rewrite Ha. cbn. rewrite andb_false_r. reflexivity.
Qed.

(** C1, as the code has it: the "Actions..." entry is in the top bar if
    and only if the worker query has resolved and its array holds at least
    one record. *)
Theorem actions_entry_iff_resolved_nonempty env h :
  In "Actions..." (captions (view env h))
  <-> isResolved (workers env) = true
      /\ (1 <= List.length (array (workers env)))%nat.
Proof.
  unfold captions. split.
  - intros Hin.
    destruct (isResolved (workers env)) eqn:Hr.
    + destruct (array (workers env)) as [| w rest] eqn:Ha.
      * rewrite topBarActions_otherwise in Hin by (right; exact Ha).
        contradiction.
      * split; [reflexivity | cbn; lia].
    + rewrite topBarActions_otherwise in Hin by (left; exact Hr).
      contradiction.
  - intros [Hr Hl]. rewrite topBarActions_resolved by assumption.
    left. reflexivity.
Qed.

(** C2: with exactly one record resolved the action list is the single
    entry captioned "Actions..."; with zero records resolved, or while the
    query is pending, it is empty. *)
Theorem one_record_one_entry env h :
  (isResolved (workers env) = true ->
   List.length (array (workers env)) = 1%nat ->
   captions (view env h) = ["Actions..."]
   /\ List.length (topBarActions (view env h)) = 1%nat)
  /\ (isResolved (workers env) = false
      \/ List.length (array (workers env)) = 0%nat ->
      topBarActions (view env h) = []).
Proof.
  split.
  - intros Hr Hl. unfold captions.
    rewrite topBarActions_resolved by (try assumption; lia).
    split; reflexivity.
  - intros [Hr | Hl]; apply topBarActions_otherwise.
    + left. exact Hr.
    + right. destruct (array (workers env)); [reflexivity | discriminate Hl].
Qed.

(** The builds request of a render, written out: the hook cells enter it
    through the fetch limit alone. *)
Lemma buildsRequestQuery_view env h :
  buildsRequestQuery (view env h)
  = Some {| property :=
              ["owners"; "workername"; "branch"; "revision"]
              ++ buildLinkDisplayProperties env;
            workerid__eq := Js.parseInt (Js.nullish (params_workerid env) "");
            limit := buildsFetchLimit h;
            order := "-buildid" |}.
Proof. reflexivity. Qed.

Lemma workersRequestId_view env h :
  workersRequestId (view env h)
  = Some (Js.toString (Js.parseInt (Js.nullish (params_workerid env) ""))).
Proof. reflexivity. Qed.

(** The tree a render returns has the same three children under the
    container whatever the route and the collection hold; only the hook
    cell of the modal target selects the middle one. *)
Lemma componentNames_view env h :
  map (@componentName Worker BuildsForWorker) (descendants (jsx (view env h)))
  = [ "div"; "WorkersTable";
      if notNull (workerForActions h) then "WorkerActionsModal" else "Fragment";
      "BuildsTable" ].
Proof.
  unfold WorkerView, workerForActions. cbn.
  destruct (notNull (useState Null (workerForActionsCell h))); reflexivity.
Qed.

(** Whenever the route parameter parses to an integer, the [id] filter of
    the worker request is the decimal form of that integer, the builds
    filter is the integer, and the [id] filter parses back to it. *)
Lemma filters_name_the_parsed_id env h (z : Z) :
  Js.parseInt (Js.nullish (params_workerid env) "") = Js.Int z ->
  workersRequestId (view env h) = Some (Js.toString (Js.Int z))
  /\ option_map (@workerid__eq) (buildsRequestQuery (view env h))
     = Some (Js.Int z)
  /\ Js.parseInt (Js.toString (Js.Int z)) = Js.Int z.
Proof.
  intros Hparse.
  rewrite workersRequestId_view, buildsRequestQuery_view, Hparse.
  repeat split. apply JsFacts.parseInt_toString.
Qed.

(** C5: a route parameter that is the decimal form of an integer [z]
    (["42"] for 42) makes the worker request carry that same string as its
    [id] filter and the builds request carry the number [z] as
    [workerid__eq]. *)
Theorem route_id_names_one_worker env h (z : Z) :
  - Js.MAX_SAFE_INTEGER <= z <= Js.MAX_SAFE_INTEGER ->
  params_workerid env = Some (Js.toString (Js.Int z)) ->
  workersRequestId (view env h) = Some (Js.toString (Js.Int z))
  /\ option_map (@workerid__eq) (buildsRequestQuery (view env h))
     = Some (Js.Int z).
Proof.
  intros _ Hroute.
  rewrite workersRequestId_view, buildsRequestQuery_view, Hroute.
  cbn [Js.nullish option_map workerid__eq].
  rewrite JsFacts.parseInt_toString. split; reflexivity.
Qed.

(** C7: when the route segment is missing or does not parse, NaN goes into
    both requests as it is ([id: "NaN"] and [workerid__eq: NaN]), and the
    render returns the same components as for any other route and adds no
    top-bar entry of its own. *)
Theorem unparsable_id_is_queried_as_NaN env h :
  params_workerid env = None
  \/ Js.parseInt (Js.nullish (params_workerid env) "") = Js.NaN ->
  Js.parseInt (Js.nullish (params_workerid env) "") = Js.NaN
  /\ dependency (accessor (view env h)) = [Js.NaN]
  /\ workersRequestId (view env h) = Some "NaN"
  /\ option_map (@workerid__eq) (buildsRequestQuery (view env h))
     = Some Js.NaN
  /\ map (@componentName Worker BuildsForWorker) (descendants (jsx (view env h)))
     = [ "div"; "WorkersTable";
         if notNull (workerForActions h)
         then "WorkerActionsModal" else "Fragment";
         "BuildsTable" ]
  /\ forall c, In c (captions (view env h)) -> c = "Actions...".
Proof.
  intros H.
  assert (Hnan : Js.parseInt (Js.nullish (params_workerid env) "") = Js.NaN).
  { destruct H as [Hnone | Hparse]; [rewrite Hnone; reflexivity | exact Hparse]. }
  split; [exact Hnan |].
  split; [cbn; rewrite Hnan; reflexivity |].
  rewrite workersRequestId_view, buildsRequestQuery_view, Hnan.
  split; [reflexivity |]. split; [reflexivity |].
  split; [apply componentNames_view |].
  intros c Hc. unfold captions, WorkerView in Hc. cbn in Hc.
  destruct (isResolved (workers env) && _) in Hc; cbn in Hc.
  - destruct Hc as [<- | []]. reflexivity.
  - contradiction.
Qed.

Lemma workersProps_view env h :
  workersProps (jsx (view env h)) = [array (workers env)].
Proof.
  unfold WorkerView. cbn.
  destruct (notNull (useState Null (workerForActionsCell h))); reflexivity.
Qed.

(** C10: the workers table a render returns is one table, and its
    [buildsForWorker] prop is null, whatever the route parameter, the
    collection and the hook cells hold. *)
Theorem workers_table_gets_no_builds env h :
  buildsForWorkerProps (jsx (view env h)) = [None]
  /\ List.length (workersProps (jsx (view env h))) = 1%nat.
Proof.
  split; [| rewrite workersProps_view; reflexivity].
  unfold WorkerView. cbn.
  destruct (notNull (useState Null (workerForActionsCell h))); reflexivity.
Qed.

End Render.

(** ** The page in use *)

Section Page.

Variables Worker BuildsForWorker : Type.

Local Abbreviation view := (WorkerView (Worker := Worker) BuildsForWorker).
Local Abbreviation loaded' := (loaded Worker BuildsForWorker).

Implicit Types (env : Env Worker) (h : Hooks Worker)
  (w : World Worker BuildsForWorker) (s : Step Worker).

Lemma handlerOf_LoadMore env h tb :
  handlerOf tb (jsx (view env h)) LoadMore
  = Some (fun h' => setLimit (buildsFetchLimit h' + 100) h').
Proof.
  unfold WorkerView. cbn.
  destruct (notNull (useState Null (workerForActionsCell h))); reflexivity.
Qed.

Lemma handlerOf_ClickWorkerIcon env h tb (x : Worker) :
  handlerOf tb (jsx (view env h)) (ClickWorkerIcon x)
  = Some (setWorkerForActions (Ref x)).
Proof. reflexivity. Qed.

Lemma handlerOf_CloseModal env h tb :
  handlerOf tb (jsx (view env h)) CloseModal
  = if notNull (workerForActions h)
    then Some (setWorkerForActions Null) else None.
Proof.
  unfold WorkerView, workerForActions. cbn.
  destruct (notNull (useState Null (workerForActionsCell h))); reflexivity.
Qed.

Lemma handlerOf_ClickTopbarAction env h (pg : Element Worker BuildsForWorker)
      i live f :
  handlerOf (topBarActions (view env h)) pg (ClickTopbarAction i live) = Some f ->
  f = setWorkerForActions (arrayGet (array live) 0).
Proof.
  unfold WorkerView. cbn.
  destruct (isResolved (workers env) && _); cbn.
  - destruct i as [| i]; cbn; [intros [= <-]; reflexivity | destruct i; discriminate].
  - destruct i; discriminate.
Qed.

(** Every callback the page can reach either replaces the modal target or
    adds the step to the fetch limit. *)
Lemma handlerOf_view env h ev f :
  handlerOf (topBarActions (view env h)) (jsx (view env h)) ev = Some f ->
  (exists v, f = setWorkerForActions v)
  \/ (ev = LoadMore /\ f = fun h' => setLimit (buildsFetchLimit h' + 100) h').
Proof.
  destruct ev as [i live | x | |]; intros Hf.
  - left. eexists. eapply handlerOf_ClickTopbarAction. exact Hf.
  - left. rewrite handlerOf_ClickWorkerIcon in Hf.
    injection Hf as <-. eexists. reflexivity.
  - left. rewrite handlerOf_CloseModal in Hf.
    destruct (notNull (workerForActions h)); [| discriminate].
    injection Hf as <-. eexists. reflexivity.
  - right. rewrite handlerOf_LoadMore in Hf.
    injection Hf as <-. split; reflexivity.
Qed.

Lemma consistent_loaded : consistent loaded'.
Proof. reflexivity. Qed.

Lemma consistent_step w s : consistent w -> consistent (step w s).
Proof.
  intros Hw. destruct s as [env | ev]; cbn.
  - split; [reflexivity | eauto].
  - unfold consistent in Hw. destruct (page w) as [r |] eqn:Hp.
    + destruct (handlerOf (topbar w) (jsx r) ev); unfold consistent; cbn;
        try rewrite Hp; exact Hw.
    + unfold consistent. rewrite Hp. exact Hw.
Qed.

Lemma consistent_run trace : forall w, consistent w -> consistent (run w trace).
Proof.
  induction trace as [| s trace IH]; intros w Hw; [exact Hw |].
  apply IH, consistent_step, Hw.
Qed.

(** One step adds the step size to the limit when it is a load-more on a
    shown page, and leaves the limit alone otherwise. *)
Lemma step_limit w s :
  consistent w ->
  buildsFetchLimit (hooks (step w s))
  = buildsFetchLimit (hooks w)
    + match page w with
      | Some _ => if isLoadMore s then 100 else 0
      | None => 0
      end.
Proof.
  intros Hw. unfold consistent in Hw.
  destruct s as [env | ev]; cbn [step isLoadMore].
  - cbn. destruct (page w); lia.
  - destruct (page w) as [r |]; [| lia].
    destruct Hw as [Htb (env & h & ->)]. rewrite Htb.
    destruct (handlerOf _ _ ev) as [f |] eqn:Hf.
    + destruct (handlerOf_view _ _ _ _ Hf) as [[v ->] | [-> ->]]; cbn.
      * destruct ev; unfold buildsFetchLimit; cbn; try lia.
        exfalso. rewrite handlerOf_LoadMore in Hf.
        injection Hf as Hf.
        apply (f_equal (fun g => limitCell (g unmounted))) in Hf.
        discriminate Hf.
      * unfold buildsFetchLimit at 1. cbn. reflexivity.
    + destruct ev; try lia.
      rewrite handlerOf_LoadMore in Hf. discriminate Hf.
Qed.

Lemma page_step w s : page w <> None -> page (step w s) <> None.
Proof.
  intros Hp. destruct s as [env | ev]; cbn; [discriminate |].
  destruct (page w) as [r |] eqn:Hr; [| now elim Hp].
  destruct (handlerOf (topbar w) (jsx r) ev); cbn; try rewrite Hr; discriminate.
Qed.

Lemma run_limit trace :
  forall w, consistent w -> page w <> None ->
  buildsFetchLimit (hooks (run w trace))
  = buildsFetchLimit (hooks w)
    + 100 * Z.of_nat (List.length (filter (@isLoadMore Worker) trace)).
Proof.
  induction trace as [| s trace IH]; intros w Hw Hp; [cbn; lia |].
  cbn [run fold_left]. fold (run (step w s) trace).
  rewrite IH by (try apply consistent_step; try apply page_step; assumption).
  rewrite step_limit by exact Hw.
  destruct (page w); [| now elim Hp].
  cbn [filter]. destruct (isLoadMore s); cbn [List.length]; lia.
Qed.

Lemma run_app w t1 t2 : run w (t1 ++ t2) = run (run w t1) t2.
Proof. apply fold_left_app. Qed.

Lemma filter_repeat_LoadMore (n : nat) :
  List.length (filter (@isLoadMore Worker) (repeat (User LoadMore) n)) = n.
Proof. induction n as [| n IH]; cbn; [reflexivity | now rewrite IH]. Qed.

Lemma openModals_view env h :
  openModals (jsx (view env h))
  = if notNull (workerForActions h) then [workerForActions h] else [].
Proof.
  unfold WorkerView, workerForActions. cbn.
  destruct (notNull (useState Null (workerForActionsCell h))); reflexivity.
Qed.

(** C3: the first render asks for 100 builds; a load-more adds exactly 100
    and the next render declares the builds query again with the new limit
    as its dependency; after any use of the page the limit is 100 plus 100
    for each load-more so far, it never decreases, and it exceeds every
    bound after enough load-mores. *)
Theorem load_more_adds_one_hundred :
  (forall env,
      option_map (@limit) (buildsRequestQuery (view env unmounted)) = Some 100)
  /\ (forall env env' h,
        exists f,
          handlerOf (topBarActions (view env h)) (jsx (view env h)) LoadMore
          = Some f
          /\ buildsFetchLimit (f h) = buildsFetchLimit h + 100
          /\ option_map (@limit) (buildsRequestQuery (view env' (f h)))
             = Some (buildsFetchLimit h + 100)
          /\ dependencies (buildsQuery (view env' (f h)))
             = [buildsFetchLimit h + 100]
          /\ reissued (buildsQuery (view env h)) (buildsQuery (view env' (f h)))
             = true)
  /\ (forall env0 rest,
        buildsFetchLimit (hooks (run loaded' (Render env0 :: rest)))
        = 100 + 100 * Z.of_nat (List.length (filter (@isLoadMore Worker) rest)))
  /\ (forall trace s,
        buildsFetchLimit (hooks (run loaded' trace))
        <= buildsFetchLimit (hooks (run loaded' (trace ++ [s]))))
  /\ (forall bound env0,
        exists rest,
          bound < buildsFetchLimit (hooks (run loaded' (Render env0 :: rest)))).
Proof.
  assert (Hseq : forall env0 rest,
             buildsFetchLimit (hooks (run loaded' (Render env0 :: rest)))
             = 100 + 100 * Z.of_nat
                           (List.length (filter (@isLoadMore Worker) rest))).
  { intros env0 rest. cbn [run fold_left].
    fold (run (step loaded' (Render env0)) rest).
    rewrite run_limit.
    - reflexivity.
    - apply consistent_step, consistent_loaded.
    - discriminate. }
  split; [reflexivity |].
  split.
  { intros env env' h. eexists. split; [apply handlerOf_LoadMore |].
    split; [reflexivity |]. split; [reflexivity |]. split; [reflexivity |].
    unfold reissued. cbn.
    rewrite andb_true_r.
    destruct (Z.eqb_spec (useState initialBuildsFetchLimit (limitCell h))
                (buildsFetchLimit h + 100)) as [He | He]; [| reflexivity].
    unfold buildsFetchLimit in He. lia. }
  split; [exact Hseq |].
  split.
  { intros trace s. rewrite run_app. cbn [run fold_left].
    rewrite step_limit by apply consistent_run, consistent_loaded.
    destruct (page (run loaded' trace)); [destruct (isLoadMore s) |]; lia. }
  intros bound env0. exists (repeat (User LoadMore) (Z.to_nat bound)).
  rewrite Hseq, filter_repeat_LoadMore. lia.
Qed.

(** C4: clicking "Actions..." makes the first worker the collection holds
    the modal target (the sole one when exactly one resolved); closing the
    modal sets the target to null; a render returns the modal exactly when
    the target is not null, so a page never holds two modals. *)
Theorem actions_entry_opens_modal_for_first_worker :
  (forall env h a live first others h',
      In a (topBarActions (view env h)) ->
      array live = first :: others ->
      workerForActions (action a live h') = Ref first)
  /\ (forall w env first others,
         isResolved (workers env) = true ->
         array (workers env) = first :: others ->
         workerForActions
           (hooks (step (step w (Render env))
                     (User (ClickTopbarAction 0 (workers env)))))
         = Ref first)
  /\ (forall w env,
         workerForActions
           (hooks (step (step w (Render env)) (User CloseModal)))
         = Null)
  /\ (forall env h,
         openModals (jsx (view env h))
         = if notNull (workerForActions h) then [workerForActions h] else [])
  /\ (forall trace r,
         page (run loaded' trace) = Some r ->
         (List.length (openModals (jsx r)) <= 1)%nat).
Proof.
  split.
  { intros env h a live first others h' Ha Hlive.
    unfold WorkerView in Ha. cbn in Ha.
    destruct (isResolved (workers env) && _) in Ha; [| contradiction].
    destruct Ha as [<- | []]. cbn. rewrite Hlive. reflexivity. }
  split.
  { intros w env first others Hr Ha. cbn [step page topbar hooks].
    rewrite topBarActions_resolved by (try assumption; rewrite Ha; cbn; lia).
    cbn. rewrite Ha. reflexivity. }
  split.
  { intros w env. cbn [step page topbar hooks].
    rewrite handlerOf_CloseModal.
    destruct (notNull (workerForActions (hooks w))) eqn:Hn; [reflexivity |].
    cbn [hooks]. destruct (workerForActions (hooks w)); [reflexivity | |];
      discriminate Hn. }
  split; [apply openModals_view |].
  intros trace r Hr.
  pose proof (consistent_run trace loaded' consistent_loaded) as Hc.
  unfold consistent in Hc. rewrite Hr in Hc.
  destruct Hc as [_ (env & h & ->)]. rewrite openModals_view.
  destruct (notNull (workerForActions h)); cbn; lia.
Qed.

(** C6: every builds request orders by "-buildid"; the property list and
    the [workerid__eq] filter do not depend on the hook cells; and the
    request after a load-more is the request before it with the limit
    raised by 100 and nothing else changed. *)
Theorem load_more_changes_only_the_limit env h :
  option_map (@order) (buildsRequestQuery (view env h)) = Some "-buildid"
  /\ (forall h',
         option_map (withLimit 0) (buildsRequestQuery (view env h'))
         = option_map (withLimit 0) (buildsRequestQuery (view env h)))
  /\ exists f,
       handlerOf (topBarActions (view env h)) (jsx (view env h)) LoadMore
       = Some f
       /\ buildsRequestQuery (view env (f h))
          = option_map (withLimit (buildsFetchLimit h + 100))
              (buildsRequestQuery (view env h)).
Proof.
  split; [reflexivity |]. split; [reflexivity |].
  eexists. split; [apply handlerOf_LoadMore | reflexivity].
Qed.

(** C8: loading the module leaves exactly one route in the router table,
    "workers/:workerid" in group "workers"; it adds one route to whatever
    table it is run on; and no render or user event changes the table. *)
Theorem one_route_registered :
  map (fun c => (route c, group c)) (routes loaded')
  = [("workers/:workerid", "workers")]
  /\ (forall reg : Registration Worker BuildsForWorker,
         List.length (moduleLoad reg) = S (List.length reg))
  /\ (forall trace, routes (run loaded' trace) = routes loaded').
Proof.
  split; [reflexivity |]. split.
  - intros reg. unfold moduleLoad, buildbotSetupPlugin, registerRoute.
    rewrite length_app. cbn. lia.
  - intros trace. generalize loaded'.
    induction trace as [| s trace IH]; intros w; [reflexivity |].
    cbn [run fold_left]. fold (run (step w s) trace). rewrite IH.
    destruct s as [env | ev]; cbn; [reflexivity |].
    destruct (page w) as [r |]; [| reflexivity].
    destruct (handlerOf (topbar w) (jsx r) ev); reflexivity.
Qed.

(** C9: clicking the icon of a worker shown in the workers table makes
    that worker the modal target, whatever the state of the worker query,
    and the target then differs from the first record of the array
    whenever the clicked worker does. *)
Theorem worker_icon_click_targets_clicked_worker w env (x : Worker) :
  In x (array (workers env)) ->
  workersProps (jsx (view env (hooks w))) = [array (workers env)]
  /\ workerForActions
       (hooks (step (step w (Render env)) (User (ClickWorkerIcon x))))
     = Ref x
  /\ (forall first,
         arrayGet (array (workers env)) 0 = Ref first ->
         x <> first ->
         workerForActions
           (hooks (step (step w (Render env)) (User (ClickWorkerIcon x))))
         <> arrayGet (array (workers env)) 0).
Proof.
  intros _.
  split; [apply (workersProps_view Worker BuildsForWorker) |].
  split; [reflexivity |].
  intros first Hfirst Hx. rewrite Hfirst. cbn. congruence.
Qed.

End Page.

(** ** The properties at sample inputs *)

Section Samples.

Import Sample.

Local Abbreviation sampleView := (WorkerView (Worker := Worker) BuildsForWorker).

(** With two records resolved the "Actions..." entry is in the top bar,
    although the array does not hold exactly one record. *)
Lemma actions_entry_with_two_records :
  In "Actions..."
    (captions (sampleView (env (Some "42") (resolvedWith ["w1"; "w2"])) unmounted))
  /\ ~ (isResolved (resolvedWith ["w1"; "w2"]) = true
        /\ List.length (array (resolvedWith ["w1"; "w2"])) = 1%nat).
Proof.
  split.
  - left. reflexivity.
  - intros [_ Hlen]. discriminate Hlen.
Qed.

Lemma one_record_one_entry_sample :
  captions (sampleView (env (Some "42") (resolvedWith ["w1"])) unmounted)
  = ["Actions..."]
  /\ topBarActions (sampleView (env (Some "42") (resolvedWith [])) unmounted) = []
  /\ topBarActions (sampleView (env (Some "42") pending) unmounted) = [].
Proof.
  split; [| split].
  - apply (proj1 (one_record_one_entry Worker BuildsForWorker
                    (env (Some "42") (resolvedWith ["w1"])) unmounted));
      reflexivity.
  - apply (proj2 (one_record_one_entry Worker BuildsForWorker
                    (env (Some "42") (resolvedWith [])) unmounted)).
    right. reflexivity.
  - apply (proj2 (one_record_one_entry Worker BuildsForWorker
                    (env (Some "42") pending) unmounted)).
    left. reflexivity.
Defined.

Lemma route_42_sample :
  - Js.MAX_SAFE_INTEGER <= 42 <= Js.MAX_SAFE_INTEGER
  /\ workersRequestId (sampleView (env (Some "42") pending) unmounted)
     = Some "42"
  /\ option_map (@workerid__eq)
       (buildsRequestQuery (sampleView (env (Some "42") pending) unmounted))
     = Some (Js.Int 42).
Proof.
  assert (Hsafe : - Js.MAX_SAFE_INTEGER <= 42 <= Js.MAX_SAFE_INTEGER)
    by (unfold Js.MAX_SAFE_INTEGER; lia).
  split; [exact Hsafe |].
  exact (route_id_names_one_worker Worker BuildsForWorker
           (env (Some "42") pending) unmounted 42 Hsafe eq_refl).
Defined.

Lemma missing_or_unparsable_segment_sample :
  (workersRequestId (sampleView (env None pending) unmounted) = Some "NaN"
   /\ option_map (@workerid__eq)
        (buildsRequestQuery (sampleView (env None pending) unmounted))
      = Some Js.NaN)
  /\ (workersRequestId (sampleView (env (Some "abc") pending) unmounted)
      = Some "NaN"
      /\ option_map (@workerid__eq)
           (buildsRequestQuery (sampleView (env (Some "abc") pending) unmounted))
         = Some Js.NaN).
Proof.
  split.
  - destruct (unparsable_id_is_queried_as_NaN Worker BuildsForWorker
                (env None pending) unmounted (or_introl eq_refl))
      as (_ & _ & Hid & Heq & _).
    split; [exact Hid | exact Heq].
  - destruct (unparsable_id_is_queried_as_NaN Worker BuildsForWorker
                (env (Some "abc") pending) unmounted (or_intror eq_refl))
      as (_ & _ & Hid & Heq & _).
    split; [exact Hid | exact Heq].
Defined.

Lemma actions_entry_sample :
  workerForActions
    (hooks (step (step (loaded Worker BuildsForWorker)
                    (Render (env (Some "42") (resolvedWith ["w1"]))))
              (User (ClickTopbarAction 0 (resolvedWith ["w1"])))))
  = Ref "w1".
Proof.
  apply (proj1 (proj2 (actions_entry_opens_modal_for_first_worker
                         Worker BuildsForWorker))
           (loaded Worker BuildsForWorker)
           (env (Some "42") (resolvedWith ["w1"])) "w1" []);
    reflexivity.
Defined.

Lemma worker_icon_click_sample :
  In "w2" ["w1"; "w2"]
  /\ workerForActions
       (hooks (step (step (loaded Worker BuildsForWorker)
                       (Render (env (Some "42") (resolvedWith ["w1"; "w2"]))))
                 (User (ClickWorkerIcon "w2"))))
     = Ref "w2"
  /\ Ref "w2" <> arrayGet ["w1"; "w2"] 0.
Proof.
  assert (Hin : In "w2" ["w1"; "w2"]) by (right; left; reflexivity).
  split; [exact Hin |].
  destruct (worker_icon_click_targets_clicked_worker Worker BuildsForWorker
              (loaded Worker BuildsForWorker)
              (env (Some "42") (resolvedWith ["w1"; "w2"])) "w2" Hin)
    as (_ & Htarget & Hother).
  split; [exact Htarget |].
  apply (Hother "w1"); [reflexivity | discriminate].
Defined.

End Samples.

(** ** More on parsing the route parameter *)

Module ParseFacts.
Import Js.

Lemma radixDigit_range (R : Z) (c : ascii) (d : Z) :
  radixDigit R c = Some d -> 0 <= d < R.
Proof.
  unfold radixDigit, digitValue. set (n := code c).
  destruct ((48 <=? n) && (n <=? 57)) eqn:E1;
    [| destruct ((97 <=? n) && (n <=? 122)) eqn:E2;
       [| destruct ((65 <=? n) && (n <=? 90)) eqn:E3; [| discriminate]]].
  all: match goal with
       | |- (if ?x <? ?y then _ else _) = _ -> _ =>
           destruct (Z.ltb_spec x y); [| discriminate]
       end.
  all: intros [= <-].
  - apply andb_prop in E1. lia.
  - apply andb_prop in E2. lia.
  - apply andb_prop in E3. lia.
Qed.

Lemma parseDigits_acc_bound (R : Z) (s : string) :
  2 <= R ->
  forall a m,
    0 <= a ->
    parseDigits R s (Some a) = Some m ->
    0 <= m < (a + 1) * R ^ Z.of_nat (String.length s).
Proof.
  intros HR. induction s as [| c rest IH]; intros a m Ha; cbn [parseDigits].
  - intros [= <-]. cbn. lia.
  - assert (HP : 0 < R ^ Z.of_nat (String.length rest))
      by (apply Z.pow_pos_nonneg; lia).
    cbn [String.length]. rewrite Nat2Z.inj_succ, Z.pow_succ_r by lia.
    destruct (radixDigit R c) as [d |] eqn:Hd.
    + apply radixDigit_range in Hd. intros H.
      apply IH in H; [| nia]. nia.
    + intros [= <-]. nia.
Qed.

(** The digits of a string of [n] code units stay below [R ^ n]. *)
Lemma parseDigits_bound (R : Z) (s : string) (m : Z) :
  2 <= R ->
  parseDigits R s None = Some m ->
  0 <= m < R ^ Z.of_nat (String.length s).
Proof.
  intros HR. destruct s as [| c rest]; cbn [parseDigits]; [discriminate |].
  destruct (radixDigit R c) as [d |] eqn:Hd; [| discriminate].
  apply radixDigit_range in Hd. intros H.
  apply parseDigits_acc_bound in H; [| lia | lia].
  assert (HP : 0 < R ^ Z.of_nat (String.length rest))
    by (apply Z.pow_pos_nonneg; lia).
  cbn [String.length]. rewrite Nat2Z.inj_succ, Z.pow_succ_r by lia. nia.
Qed.

Lemma trimStart_length (s : string) :
  (String.length (trimStart s) <= String.length s)%nat.
Proof.
  induction s as [| c rest IH]; cbn [trimStart]; [lia |].
  destruct (isStrWhiteSpaceChar c); cbn [String.length]; lia.
Qed.

Lemma stripSign_cases (s : string) :
  exists sg s1,
    stripSign s = (sg, s1)
    /\ (sg = 1 \/ sg = -1)
    /\ (String.length s1 <= String.length s)%nat.
Proof.
  destruct s as [| c rest].
  - exists 1, "". cbn. repeat split; [left; reflexivity | lia].
  - destruct c as [[] [] [] [] [] [] [] []]; cbn [stripSign];
      eexists; eexists; (split; [reflexivity |]);
      (split; [first [left; reflexivity | right; reflexivity]
              | cbn [String.length]; lia]).
Qed.

Lemma stripPrefix_cases (s : string) :
  stripPrefix s = (10, s)
  \/ exists rest,
       stripPrefix s = (16, rest)
       /\ (2 + String.length rest = String.length s)%nat.
Proof.
  destruct s as [| c rest]; [left; reflexivity |].
  destruct c as [[] [] [] [] [] [] [] []]; try (left; reflexivity).
  destruct rest as [| c2 rest2]; [left; reflexivity |].
  destruct c2 as [[] [] [] [] [] [] [] []]; try (left; reflexivity);
    right; exists rest2; split; reflexivity.
Qed.

(** A string of at most 15 code units parses to NaN or to a safe integer. *)
Lemma parseInt_short (s : string) :
  (String.length s <= 15)%nat ->
  parseInt s = NaN \/ isSafeInteger (parseInt s) = true.
Proof.
  intros Hlen. unfold parseInt.
  pose proof (trimStart_length s) as Ht.
  destruct (stripSign_cases (trimStart s)) as (sg & s1 & -> & Hsg & Hl1).
  assert (H15 : 10 ^ 15 = 1000000000000000) by reflexivity.
  assert (H13 : 16 ^ 13 = 4503599627370496) by reflexivity.
  destruct (stripPrefix_cases s1) as [-> | (rest & -> & Hl2)].
  - destruct (parseDigits 10 s1 None) as [m |] eqn:Hm; [right | left; reflexivity].
    apply parseDigits_bound in Hm; [| lia].
    assert (10 ^ Z.of_nat (String.length s1) <= 10 ^ 15)
      by (apply Z.pow_le_mono_r; lia).
    unfold isSafeInteger, MAX_SAFE_INTEGER.
    apply andb_true_intro. split; [apply Z.leb_le | apply Z.leb_le]; lia.
  - destruct (parseDigits 16 rest None) as [m |] eqn:Hm; [right | left; reflexivity].
    apply parseDigits_bound in Hm; [| lia].
    assert (16 ^ Z.of_nat (String.length rest) <= 16 ^ 13)
      by (apply Z.pow_le_mono_r; lia).
    unfold isSafeInteger, MAX_SAFE_INTEGER.
    apply andb_true_intro. split; [apply Z.leb_le | apply Z.leb_le]; lia.
Qed.

Lemma isDecimalToken_decimal (n : Z) : isDecimalToken (decimal n) = true.
Proof.
  unfold isDecimalToken.
  destruct (decimal n) as [| c rest] eqn:E.
  - exfalso. revert E. apply JsFacts.digitsOf_not_empty.
  - rewrite <- E. apply JsFacts.allDecimalDigits_digitsOf. reflexivity.
Qed.

Lemma isIntegerToken_toString (z : Z) :
  isIntegerToken (toString (Int z)) = true.
Proof.
  unfold toString. destruct (z <? 0).
  - unfold isIntegerToken. apply orb_true_iff. right.
    cbn [append]. rewrite isDecimalToken_decimal. reflexivity.
  - unfold isIntegerToken. rewrite isDecimalToken_decimal. reflexivity.
Qed.

Lemma parseInt_toString_NaN : parseInt (toString NaN) = NaN.
Proof. reflexivity. Qed.

Lemma digitsOf_append (fuel : nat) :
  forall n acc rest,
    digitsOf fuel n (acc ++ rest) = (digitsOf fuel n acc ++ rest)%string.
Proof.
  induction fuel as [| fuel IH]; intros n acc rest; [reflexivity |].
  cbn [digitsOf]. destruct (n / 10 =? 0); [reflexivity |].
  apply (IH (n / 10) (String (digitChar (n mod 10)) acc) rest).
Qed.

Lemma decimal_append (n : Z) (rest : string) :
  (decimal n ++ rest)%string = digitsOf (S (Z.to_nat (Z.log2 n))) n rest.
Proof. unfold decimal. rewrite <- digitsOf_append. reflexivity. Qed.

(** The first digit [digitsOf] writes for a positive integer is not 0. *)
Lemma digitsOf_leading (fuel : nat) :
  forall n acc,
    0 < n < 10 ^ Z.of_nat (S fuel) ->
    exists d tail,
      1 <= d <= 9 /\ digitsOf (S fuel) n acc = String (digitChar d) tail.
Proof.
  induction fuel as [| fuel IH]; intros n acc Hn.
  - change (10 ^ Z.of_nat 1) with 10 in Hn.
    exists n, acc. split; [lia |].
    cbn [digitsOf]. rewrite (Z.div_small n 10), Z.mod_small by lia.
    reflexivity.
  - change (digitsOf (S (S fuel)) n acc)
      with (if n / 10 =? 0
            then String (digitChar (n mod 10)) acc
            else digitsOf (S fuel) (n / 10) (String (digitChar (n mod 10)) acc)).
    destruct (Z.eqb_spec (n / 10) 0) as [Hz | Hz].
    + assert (n < 10) by (apply Z.div_small_iff in Hz; lia).
      exists n, acc. rewrite Z.mod_small by lia. split; [lia | reflexivity].
    + apply IH. split.
      * assert (0 <= n / 10) by (apply Z.div_pos; lia). lia.
      * apply Z.div_lt_upper_bound; [lia |].
        replace (Z.of_nat (S (S fuel))) with (Z.succ (Z.of_nat (S fuel))) in Hn
          by lia.
        rewrite Z.pow_succ_r in Hn by lia. lia.
Qed.

Lemma radixDigit_not_decimal (c : ascii) :
  isDecimalDigit c = false -> radixDigit 10 c = None.
Proof.
  intros H. destruct c as [[] [] [] [] [] [] [] []];
    try discriminate H; reflexivity.
Qed.

Lemma parseDigits_stops (rest : string) (a : Z) :
  startsWith isDecimalDigit rest = false ->
  parseDigits 10 rest (Some a) = Some a.
Proof.
  destruct rest as [| c tail]; [reflexivity |].
  cbn [startsWith parseDigits]. intros H.
  rewrite (radixDigit_not_decimal c H). reflexivity.
Qed.

Lemma nonzero_digit_first (d : Z) (tail : string) :
  1 <= d <= 9 ->
  trimStart (String (digitChar d) tail) = String (digitChar d) tail
  /\ stripSign (String (digitChar d) tail) = (1, String (digitChar d) tail)
  /\ stripPrefix (String (digitChar d) tail) = (10, String (digitChar d) tail).
Proof.
  intros H.
  assert (Hd : d = 1 \/ d = 2 \/ d = 3 \/ d = 4 \/ d = 5 \/
               d = 6 \/ d = 7 \/ d = 8 \/ d = 9) by lia.
  destruct Hd as [-> | [-> | [-> | [-> | [-> | [-> | [-> | [-> | ->]]]]]]]];
    repeat split; reflexivity.
Qed.

Lemma zero_first (rest : string) :
  startsWith isX rest = false ->
  trimStart (String "0" rest) = String "0" rest
  /\ stripSign (String "0" rest) = (1, String "0" rest)
  /\ stripPrefix (String "0" rest) = (10, String "0" rest).
Proof.
  intros H. split; [reflexivity |]. split; [reflexivity |].
  destruct rest as [| c tail]; [reflexivity |].
  cbn [startsWith] in H.
  destruct c as [[] [] [] [] [] [] [] []]; try discriminate H; reflexivity.
Qed.

(** Text after the digits is ignored, unless the digits are a lone zero
    and the text begins with x or X. *)
Lemma parseInt_decimal_rest (n : Z) (rest : string) :
  0 <= n ->
  startsWith isDecimalDigit rest = false ->
  (n = 0 -> startsWith isX rest = false) ->
  parseInt (decimal n ++ rest) = Int n.
Proof.
  intros Hn Hrest Hx.
  assert (Hdigits : parseDigits 10 (decimal n ++ rest) None = Some n).
  { rewrite decimal_append.
    rewrite JsFacts.parseDigits_digitsOf
      by (split; [exact Hn | apply JsFacts.decimal_bound, Hn]).
    apply parseDigits_stops, Hrest. }
  assert (Hstrip : trimStart (decimal n ++ rest) = (decimal n ++ rest)%string
                   /\ stripSign (decimal n ++ rest) = (1, (decimal n ++ rest)%string)
                   /\ stripPrefix (decimal n ++ rest)
                      = (10, (decimal n ++ rest)%string)).
  { destruct (Z.eq_dec n 0) as [-> | Hnz].
    - apply (zero_first rest), Hx. reflexivity.
    - rewrite decimal_append.
      destruct (digitsOf_leading (Z.to_nat (Z.log2 n)) n rest)
        as (d & tail & Hd & ->).
      + split; [lia | apply JsFacts.decimal_bound, Hn].
      + apply nonzero_digit_first, Hd. }
  destruct Hstrip as (Ht & Hs & Hp).
  unfold parseInt. rewrite Ht, Hs, Hp, Hdigits. f_equal. lia.
Qed.

Lemma trimStart_white_space (ws s : string) :
  allWhiteSpace ws = true -> trimStart (ws ++ s) = trimStart s.
Proof.
  induction ws as [| c rest IH]; [reflexivity |].
  cbn [allWhiteSpace append trimStart]. intros H.
  apply andb_prop in H. destruct H as [Hc Hrest].
  rewrite Hc. apply IH, Hrest.
Qed.

Lemma parseInt_white_space (ws s : string) :
  allWhiteSpace ws = true -> parseInt (ws ++ s) = parseInt s.
Proof.
  intros H. unfold parseInt. rewrite trimStart_white_space by exact H.
  reflexivity.
Qed.

(** A first code unit that is no white space, sign or decimal digit makes
    the parse fail. *)
Lemma parseInt_not_numeric (c : ascii) (rest : string) :
  isStrWhiteSpaceChar c = false ->
  isSign c = false ->
  isDecimalDigit c = false ->
  parseInt (String c rest) = NaN.
Proof.
  intros Hw Hs Hd.
  destruct c as [[] [] [] [] [] [] [] []];
    try discriminate Hw; try discriminate Hs; try discriminate Hd;
    reflexivity.
Qed.

End ParseFacts.

(** ** Which worker a route names *)

Section RouteProperties.

Variables Worker BuildsForWorker : Type.

Local Abbreviation view := (WorkerView (Worker := Worker) BuildsForWorker).

Implicit Types (env : Env Worker) (h : Hooks Worker).

(** A render reads the route parameter through its parse alone. *)
Lemma view_reads_parsed_route env env' h :
  Js.parseInt (Js.nullish (params_workerid env) "")
  = Js.parseInt (Js.nullish (params_workerid env') "") ->
  workers env = workers env' ->
  buildLinkDisplayProperties env = buildLinkDisplayProperties env' ->
  view env h = view env' h.
Proof.
  intros Hp Hw Hb. unfold WorkerView. rewrite Hp, Hw, Hb. reflexivity.
Qed.

(** X1: a route parameter of at most 15 code units makes the builds filter
    and the accessor dependency NaN or a safe integer, and the [id] filter
    of the worker request is then "NaN" or a plain decimal integer that
    parses back to the number of the builds filter. *)
Theorem short_route_is_normalised env h :
  (String.length (Js.nullish (params_workerid env) "") <= 15)%nat ->
  exists x s,
    option_map (@workerid__eq) (buildsRequestQuery (view env h)) = Some x
    /\ dependency (accessor (view env h)) = [x]
    /\ (x = Js.NaN \/ Js.isSafeInteger x = true)
    /\ workersRequestId (view env h) = Some s
    /\ (s = "NaN" \/ Js.isIntegerToken s = true)
    /\ Js.parseInt s = x.
Proof.
  intros Hlen.
  exists (Js.parseInt (Js.nullish (params_workerid env) "")).
  exists (Js.toString (Js.parseInt (Js.nullish (params_workerid env) ""))).
  split; [reflexivity |]. split; [reflexivity |].
  split; [apply ParseFacts.parseInt_short, Hlen |].
  split; [reflexivity |].
  destruct (Js.parseInt (Js.nullish (params_workerid env) "")) as [| z].
  - split; [left; reflexivity | reflexivity].
  - split; [right; apply ParseFacts.isIntegerToken_toString
           | apply JsFacts.parseInt_toString].
Qed.

(** X2: text after the digits of the route parameter is ignored: the
    render is the one for the digits alone, unless the digits are a lone 0
    and the text begins with x or X. *)
Theorem trailing_text_is_ignored env h (z : Z) (rest : string) :
  0 <= z <= Js.MAX_SAFE_INTEGER ->
  Js.startsWith Js.isDecimalDigit rest = false ->
  (z = 0 -> Js.startsWith Js.isX rest = false) ->
  params_workerid env = Some (Js.decimal z ++ rest)%string ->
  view env h = view (withRoute (Some (Js.decimal z)) env) h
  /\ option_map (@workerid__eq) (buildsRequestQuery (view env h))
     = Some (Js.Int z)
  /\ workersRequestId (view env h) = Some (Js.decimal z).
Proof.
  intros Hz Hrest Hx Hroute.
  assert (Hparse : Js.parseInt (Js.nullish (params_workerid env) "") = Js.Int z).
  { rewrite Hroute. apply ParseFacts.parseInt_decimal_rest; [lia | assumption ..]. }
  split.
  - apply view_reads_parsed_route; [| reflexivity | reflexivity].
    rewrite Hparse. cbn [withRoute params_workerid Js.nullish].
    symmetry. apply JsFacts.parseInt_decimal. lia.
  - rewrite buildsRequestQuery_view, workersRequestId_view, Hparse.
    split; [reflexivity |].
    cbn [Js.toString]. destruct (Z.ltb_spec z 0); [lia | reflexivity].
Qed.

(** X3: white space in front of the route parameter is ignored: the render
    is the one for the parameter without it. *)
Theorem leading_white_space_is_ignored env h (ws s : string) :
  Js.allWhiteSpace ws = true ->
  params_workerid env = Some (ws ++ s)%string ->
  view env h = view (withRoute (Some s) env) h.
Proof.
  intros Hws Hroute.
  apply view_reads_parsed_route; [| reflexivity | reflexivity].
  rewrite Hroute. cbn [withRoute params_workerid Js.nullish].
  apply ParseFacts.parseInt_white_space, Hws.
Qed.

(** X4: a route parameter whose first code unit is no white space, sign or
    decimal digit is queried as NaN: [id: "NaN"] and [workerid__eq: NaN]. *)
Theorem non_numeric_route_is_queried_as_NaN env h (c : ascii) (rest : string) :
  params_workerid env = Some (String c rest) ->
  Js.isStrWhiteSpaceChar c = false ->
  Js.isSign c = false ->
  Js.isDecimalDigit c = false ->
  workersRequestId (view env h) = Some "NaN"
  /\ option_map (@workerid__eq) (buildsRequestQuery (view env h))
     = Some Js.NaN.
Proof.
  intros Hroute Hw Hs Hd.
  rewrite workersRequestId_view, buildsRequestQuery_view, Hroute.
  cbn [Js.nullish]. rewrite ParseFacts.parseInt_not_numeric by assumption.
  split; reflexivity.
Qed.

(** X5: the builds table is handed the builds query of the render, the
    builders query the workers table gets too, and as fetch limit the very
    number that is the limit of the builds request and the one dependency
    of the builds query. *)
Theorem builds_table_limit_matches_query env h :
  buildsTableProps (jsx (view env h))
  = [(buildsQuery (view env h), buildersQuery (view env h), buildsFetchLimit h)]
  /\ workersTableQueries (jsx (view env h))
     = [(buildersQuery (view env h), mastersQuery (view env h))]
  /\ option_map (@limit) (buildsRequestQuery (view env h))
     = Some (buildsFetchLimit h)
  /\ dependencies (buildsQuery (view env h)) = [buildsFetchLimit h].
Proof.
  split; [| split; [| split; reflexivity]];
    unfold WorkerView; cbn;
    destruct (notNull (useState Null (workerForActionsCell h))); reflexivity.
Qed.

(** X6: the four requests of a render go through one accessor and depend
    on the route parameter, the display properties and the fetch limit
    only: renders that agree on these declare the same requests, whatever
    the worker collection holds and whatever the modal target is. *)
Theorem requests_ignore_collection_and_modal env env' h h' :
  params_workerid env = params_workerid env' ->
  buildLinkDisplayProperties env = buildLinkDisplayProperties env' ->
  buildsFetchLimit h = buildsFetchLimit h' ->
  workersQuery (view env h) = workersQuery (view env' h')
  /\ buildersQuery (view env h) = buildersQuery (view env' h')
  /\ mastersQuery (view env h) = mastersQuery (view env' h')
  /\ buildsQuery (view env h) = buildsQuery (view env' h')
  /\ map requestAccessor
       [ workersQuery (view env h); buildersQuery (view env h);
         mastersQuery (view env h); request (buildsQuery (view env h)) ]
     = repeat (accessor (view env h)) 4.
Proof.
  intros Hroute Hprops Hlimit.
  unfold buildsFetchLimit in Hlimit.
  unfold WorkerView, useLoadMoreItemsState. cbn.
  rewrite Hroute, Hprops, Hlimit. repeat split; reflexivity.
Qed.

(** X7: two renders declare the builds query with the same dependency list
    exactly when their fetch limits are equal; the route parameter, the
    collection and the modal target do not enter the list. *)
Theorem dependencies_follow_the_limit_alone env env' h h' :
  dependencies (buildsQuery (view env h))
  = dependencies (buildsQuery (view env' h'))
  <-> buildsFetchLimit h = buildsFetchLimit h'.
Proof.
  split.
  - intros H. injection H as H. exact H.
  - intros H. unfold buildsFetchLimit in H.
    unfold WorkerView, useLoadMoreItemsState. cbn. rewrite H. reflexivity.
Qed.

End RouteProperties.

(** ** What user events do to the page *)

Section PageProperties.

Variables Worker BuildsForWorker : Type.

Local Abbreviation view := (WorkerView (Worker := Worker) BuildsForWorker).
Local Abbreviation loaded' := (loaded Worker BuildsForWorker).

Implicit Types (env : Env Worker) (h : Hooks Worker)
  (w : World Worker BuildsForWorker) (s : Step Worker).

Lemma reachable_consistent trace : consistent (run loaded' trace).
Proof. apply consistent_run, (consistent_loaded Worker BuildsForWorker). Qed.

(** The handler a user event reaches on a consistent world, if any,
    replaces the modal target or raises the limit. *)
Lemma step_user w ev :
  consistent w ->
  step w (User ev) = w
  \/ (exists v,
         hooks (step w (User ev)) = setWorkerForActions v (hooks w)
         /\ (v = Null /\ ev = CloseModal \/ In v (selected (User ev))))
  \/ (ev = LoadMore
      /\ hooks (step w (User ev))
         = setLimit (buildsFetchLimit (hooks w) + 100) (hooks w)).
Proof.
  intros Hw. unfold consistent in Hw. cbn [step].
  destruct (page w) as [r |]; [| left; reflexivity].
  destruct Hw as [Htb (env & h & ->)]. rewrite Htb.
  destruct ev as [i live | x | |].
  - destruct (handlerOf _ _ (ClickTopbarAction i live)) as [f |] eqn:Hf;
      [| left; reflexivity].
    apply handlerOf_ClickTopbarAction in Hf. subst f.
    right. left. eexists. split; [reflexivity |]. right. left. reflexivity.
  - rewrite handlerOf_ClickWorkerIcon.
    right. left. eexists. split; [reflexivity |]. right. left. reflexivity.
  - rewrite handlerOf_CloseModal.
    destruct (notNull (workerForActions h)); [| left; reflexivity].
    right. left. eexists. split; [reflexivity |]. left. split; reflexivity.
  - rewrite handlerOf_LoadMore. right. right. split; reflexivity.
Qed.

(** X8: a top-bar entry clicked when the collection has become empty
    stores [undefined] as modal target, and the next render returns the
    action modal for it, [undefined] not being null. *)
Theorem stale_entry_click_stores_undefined env env' h h'
        (a : TopbarAction Worker) (live : DataCollection Worker) :
  In a (topBarActions (view env h)) ->
  array live = [] ->
  workerForActions (action a live h') = Undefined
  /\ openModals (jsx (view env' (action a live h'))) = [Undefined].
Proof.
  intros Ha Hlive.
  assert (Haction : action a live h' = setWorkerForActions Undefined h').
  { unfold WorkerView in Ha. cbn in Ha.
    destruct (isResolved (workers env) && _) in Ha; [| contradiction].
    destruct Ha as [<- | []]. cbn. rewrite Hlive. reflexivity. }
  rewrite Haction. split; [reflexivity |].
  rewrite openModals_view. reflexivity.
Qed.

(** X9: the two state cells are changed apart: a render changes neither,
    a load-more leaves the modal target as it is, and every other user
    event leaves the fetch limit as it is. *)
Theorem limit_and_target_change_apart trace :
  (forall env, hooks (step (run loaded' trace) (Render env))
               = hooks (run loaded' trace))
  /\ workerForActions (hooks (step (run loaded' trace) (User LoadMore)))
     = workerForActions (hooks (run loaded' trace))
  /\ (forall ev,
         ev <> LoadMore ->
         buildsFetchLimit (hooks (step (run loaded' trace) (User ev)))
         = buildsFetchLimit (hooks (run loaded' trace))).
Proof.
  pose proof (reachable_consistent trace) as Hc.
  split; [reflexivity |]. split.
  - destruct (step_user _ LoadMore Hc)
      as [-> | [(v & _ & [[_ H] | []]) | [_ ->]]];
      [reflexivity | discriminate H | reflexivity].
  - intros ev Hev.
    destruct (step_user _ ev Hc) as [-> | [(v & -> & _) | [H _]]];
      [reflexivity | reflexivity | contradiction].
Qed.

(** X10: whatever the page showed before, after a click on the icon of a
    worker the next render returns exactly one action modal, open for
    that worker; a later click on another icon replaces it. *)
Theorem last_icon_click_wins w env env' env'' (x y : Worker) :
  option_map (fun r => openModals (jsx r))
    (page (run w [Render env; User (ClickWorkerIcon x); Render env']))
  = Some [Ref x]
  /\ option_map (fun r => openModals (jsx r))
       (page (run w [Render env; User (ClickWorkerIcon x); Render env';
                     User (ClickWorkerIcon y); Render env'']))
     = Some [Ref y].
Proof.
  split; cbn [run fold_left step page hooks topbar option_map];
    repeat (rewrite handlerOf_ClickWorkerIcon;
            cbn [step page hooks topbar option_map]);
    rewrite openModals_view; reflexivity.
Qed.

(** X11: after the modal's close control the next render returns no
    action modal; and when no modal is open there is no close control to
    reach, so the event changes nothing. *)
Theorem close_removes_the_modal w env env' :
  option_map (fun r => openModals (jsx r))
    (page (run w [Render env; User CloseModal; Render env']))
  = Some []
  /\ (workerForActions (hooks w) = Null ->
      step (step w (Render env)) (User CloseModal) = step w (Render env)).
Proof.
  split.
  - cbn [run fold_left step page hooks topbar].
    rewrite handlerOf_CloseModal.
    destruct (notNull (workerForActions (hooks w))) eqn:Hn;
      cbn [step page hooks topbar option_map]; rewrite openModals_view.
    + reflexivity.
    + rewrite Hn. reflexivity.
  - intros Hnull. cbn [step page hooks topbar].
    rewrite handlerOf_CloseModal, Hnull. reflexivity.
Qed.

(** X12: however the page is used, the top bar never holds more than one
    action of this view, an action it holds is captioned "Actions..."
    with variant "primary", and a click on any further top-bar position
    changes nothing. *)
Theorem top_bar_holds_at_most_one_action trace :
  (List.length (topbar (run loaded' trace)) <= 1)%nat
  /\ (forall a, In a (topbar (run loaded' trace)) ->
                caption a = "Actions..." /\ variant a = "primary")
  /\ (forall i live,
         step (run loaded' trace) (User (ClickTopbarAction (S i) live))
         = run loaded' trace).
Proof.
  pose proof (reachable_consistent trace) as Hc.
  unfold consistent in Hc. cbn [step].
  destruct (page (run loaded' trace)) as [r |].
  - destruct Hc as [-> (env & h & ->)].
    unfold WorkerView. cbn.
    destruct (isResolved (workers env) && _); cbn.
    + split; [lia |]. split.
      * intros a [<- | []]. split; reflexivity.
      * intros i live. destruct i; reflexivity.
    + split; [lia |]. split; [intros a [] | reflexivity].
  - rewrite Hc. cbn. split; [lia |]. split; [intros a [] | reflexivity].
Qed.

Lemma run_target trace :
  forall w,
    consistent w ->
    workerForActions (hooks (run w trace)) = workerForActions (hooks w)
    \/ workerForActions (hooks (run w trace)) = Null
    \/ In (workerForActions (hooks (run w trace))) (flat_map (@selected Worker) trace).
Proof.
  induction trace as [| s trace IH]; intros w Hw; [left; reflexivity |].
  cbn [run fold_left flat_map]. fold (run (step w s) trace).
  destruct (IH (step w s) (consistent_step _ _ w s Hw)) as [-> | [-> | Hin]].
  - destruct s as [env | ev]; [left; reflexivity |].
    destruct (step_user w ev Hw)
      as [-> | [(v & -> & [[-> _] | Hv]) | [_ ->]]].
    + left. reflexivity.
    + right. left. reflexivity.
    + right. right. apply in_or_app. left. exact Hv.
    + left. reflexivity.
  - right. left. reflexivity.
  - right. right. apply in_or_app. right. exact Hin.
Qed.

(** X13: however the page is used, the modal target is null or a value a
    user event selected: the worker of a clicked icon, or what index 0 of
    the collection held when a top-bar entry was clicked. *)
Theorem target_was_selected_by_the_user trace :
  workerForActions (hooks (run loaded' trace)) = Null
  \/ In (workerForActions (hooks (run loaded' trace)))
       (flat_map (@selected Worker) trace).
Proof.
  destruct (run_target trace loaded' (consistent_loaded Worker BuildsForWorker))
    as [H | [H | H]].
  - left. rewrite H. reflexivity.
  - left. exact H.
  - right. exact H.
Qed.

End PageProperties.

(** ** The further properties at sample inputs *)

Section MoreSamples.

Import Sample.

Local Abbreviation sampleView := (WorkerView (Worker := Worker) BuildsForWorker).

Lemma short_route_sample :
  exists x s,
    option_map (@workerid__eq)
      (buildsRequestQuery
         (sampleView (env (Some "999999999999999") pending) unmounted))
    = Some x
    /\ dependency
         (accessor (sampleView (env (Some "999999999999999") pending) unmounted))
       = [x]
    /\ (x = Js.NaN \/ Js.isSafeInteger x = true)
    /\ workersRequestId
         (sampleView (env (Some "999999999999999") pending) unmounted)
       = Some s
    /\ (s = "NaN" \/ Js.isIntegerToken s = true)
    /\ Js.parseInt s = x.
Proof.
  apply (short_route_is_normalised Worker BuildsForWorker
           (env (Some "999999999999999") pending) unmounted).
  cbn. lia.
Defined.

Lemma trailing_text_sample :
  sampleView (env (Some "42abc") pending) unmounted
  = sampleView (env (Some "42") pending) unmounted
  /\ option_map (@workerid__eq)
       (buildsRequestQuery (sampleView (env (Some "42abc") pending) unmounted))
     = Some (Js.Int 42)
  /\ workersRequestId (sampleView (env (Some "42abc") pending) unmounted)
     = Some "42".
Proof.
  apply (trailing_text_is_ignored Worker BuildsForWorker
           (env (Some "42abc") pending) unmounted 42 "abc").
  - unfold Js.MAX_SAFE_INTEGER. lia.
  - reflexivity.
  - intros H. discriminate H.
  - reflexivity.
Defined.

Lemma leading_white_space_sample :
  sampleView (env (Some "  42") pending) unmounted
  = sampleView (env (Some "42") pending) unmounted.
Proof.
  apply (leading_white_space_is_ignored Worker BuildsForWorker
           (env (Some "  42") pending) unmounted "  " "42");
    reflexivity.
Defined.

Lemma non_numeric_route_sample :
  workersRequestId (sampleView (env (Some "abc") pending) unmounted)
  = Some "NaN"
  /\ option_map (@workerid__eq)
       (buildsRequestQuery (sampleView (env (Some "abc") pending) unmounted))
     = Some Js.NaN.
Proof.
  apply (non_numeric_route_is_queried_as_NaN Worker BuildsForWorker
           (env (Some "abc") pending) unmounted "a" "bc");
    reflexivity.
Defined.

Lemma requests_ignore_collection_sample :
  workersQuery (sampleView (env (Some "42") pending) unmounted)
  = workersQuery
      (sampleView (env (Some "42") (resolvedWith ["w1"]))
         (setWorkerForActions (Ref "w1") unmounted))
  /\ buildsQuery (sampleView (env (Some "42") pending) unmounted)
     = buildsQuery
         (sampleView (env (Some "42") (resolvedWith ["w1"]))
            (setWorkerForActions (Ref "w1") unmounted)).
Proof.
  destruct (requests_ignore_collection_and_modal Worker BuildsForWorker
              (env (Some "42") pending)
              (env (Some "42") (resolvedWith ["w1"]))
              unmounted (setWorkerForActions (Ref "w1") unmounted)
              eq_refl eq_refl eq_refl)
    as (Hworkers & _ & _ & Hbuilds & _).
  split; [exact Hworkers | exact Hbuilds].
Defined.

Lemma stale_entry_click_sample :
  exists a,
    In a (topBarActions (sampleView (env (Some "42") (resolvedWith ["w1"])) unmounted))
    /\ workerForActions (action a (resolvedWith []) unmounted) = Undefined
    /\ openModals
         (jsx (sampleView (env (Some "42") (resolvedWith []))
                 (action a (resolvedWith []) unmounted)))
       = [Undefined].
Proof.
  eexists. split; [left; reflexivity |].
  apply (stale_entry_click_stores_undefined Worker BuildsForWorker
           (env (Some "42") (resolvedWith ["w1"]))
           (env (Some "42") (resolvedWith [])) unmounted unmounted
           _ (resolvedWith []));
    [left; reflexivity | reflexivity].
Defined.

End MoreSamples.
